(** * automated_skeleton.py: the [RunOs] agent skeleton

    A shallow embedding of [src/automated_skeleton.py].  The Python class
    [RunOs] keeps seven lists as attributes, offers three helpers that
    append an action to [_event_queue], routes every event of a batch to
    the method [handle_<etype>] when the class has one, and returns
    [_event_queue].  Every handler of the skeleton has a docstring for
    body: it returns [None] and touches nothing.

    Methods are computations in a state-and-error monad over the object
    [self]: the state is the record of the attributes, the error layer is
    a Python exception. *)

From Stdlib Require Import ZArith List String Bool Lia.
From ExtLib Require Import Structures.Monad Structures.MonadState Structures.MonadExc.
From ExtLib Require Import Data.Monads.StateMonad Data.Monads.EitherMonad.
Import ListNotations.
Import MonadNotation.
Local Open Scope monad_scope.
Local Open Scope string_scope.
Local Open Scope Z_scope.

#[local] Existing Instance Monad_stateT.

(** ** Data *)

(** Values an event attribute can hold. *)
Inductive PyVal : Type :=
| PyInt (z : Z)
| PyBool (b : bool)
| PyStr (s : string).

(** An event object of the game: its [etype] (the one attribute [__call__]
    reads, any string) and its other attributes ([pid], [idx], [swap],
    [use], [cpu], [io_count], ...), by name.  An attribute a handler's
    docstring announces may be missing, repeated or of another type:
    nothing here excludes a malformed notification. *)
Record Event : Type := mkEvent {
  etype : string;
  attrs : list (string * PyVal)
}.

(** The dictionaries the helpers append to [_event_queue]. *)
Inductive Action : Type :=
| ActPage (pid idx : Z)      (* {'type': 'page', 'pid': pid, 'idx': idx} *)
| ActProcess (pid : Z)       (* {'type': 'process', 'pid': pid} *)
| ActIoQueue.                (* {'type': 'io_queue'} *)

Definition Action_eqb (a b : Action) : bool :=
  match a, b with
  | ActPage p i, ActPage q j => (p =? q) && (i =? j)
  | ActProcess p, ActProcess q => p =? q
  | ActIoQueue, ActIoQueue => true
  | _, _ => false
  end.

(** The attributes of [RunOs] (lines 52-62). *)
Record RunOs : Type := mkRunOs {
  procs : list Z;
  in_cpu : list Z;
  wait_io : list Z;
  wait_page : list Z;
  ram_pages : list (Z * Z);
  swap_pages : list (Z * Z);
  _event_queue : list Action
}.

(** The three globals the game passes to the script (docstring, lines
    4-7).  The script never reads them. *)
Record Globals : Type := mkGlobals {
  num_cpus : Z;
  num_ram_pages : Z;
  num_swap_pages : Z
}.

(** A Python exception, by the name of its class. *)
Inductive PyError : Type :=
| PyExc (name : string).

(** A method of [RunOs]: it reads and writes [self] and may raise. *)
Abbreviation Method := (stateT RunOs (sum PyError)).

(** ** The helpers (lines 64-83) *)

Definition queue_append (a : Action) (self : RunOs) : RunOs :=
  mkRunOs (procs self) (in_cpu self) (wait_io self) (wait_page self)
          (ram_pages self) (swap_pages self) (_event_queue self ++ [a]).

Definition queue_clear (self : RunOs) : RunOs :=
  mkRunOs (procs self) (in_cpu self) (wait_io self) (wait_page self)
          (ram_pages self) (swap_pages self) [].

Definition move_page (pid idx : Z) : Method unit :=
  modify (queue_append (ActPage pid idx)) ;; ret tt.

Definition move_process (pid : Z) : Method unit :=
  modify (queue_append (ActProcess pid)) ;; ret tt.

Definition do_io : Method unit :=
  modify (queue_append ActIoQueue) ;; ret tt.

(** ** The handlers (lines 103-237): a docstring and nothing else *)

Definition handle_IO_QUEUE (event : Event) : Method unit := ret tt.
Definition handle_PAGE_NEW (event : Event) : Method unit := ret tt.
Definition handle_PAGE_USE (event : Event) : Method unit := ret tt.
Definition handle_PAGE_SWAP (event : Event) : Method unit := ret tt.
Definition handle_PAGE_FREE (event : Event) : Method unit := ret tt.
Definition handle_PROC_NEW (event : Event) : Method unit := ret tt.
Definition handle_PROC_CPU (event : Event) : Method unit := ret tt.
Definition handle_PROC_STARV (event : Event) : Method unit := ret tt.
Definition handle_PROC_WAIT_IO (event : Event) : Method unit := ret tt.
Definition handle_PROC_WAIT_PAGE (event : Event) : Method unit := ret tt.
Definition handle_PROC_TERM (event : Event) : Method unit := ret tt.
Definition handle_PROC_KILL (event : Event) : Method unit := ret tt.

(** The attributes of the class whose name starts with [handle_]. *)
Definition handlers : list (string * (Event -> Method unit)) :=
  [ ("handle_IO_QUEUE", handle_IO_QUEUE);
    ("handle_PAGE_NEW", handle_PAGE_NEW);
    ("handle_PAGE_USE", handle_PAGE_USE);
    ("handle_PAGE_SWAP", handle_PAGE_SWAP);
    ("handle_PAGE_FREE", handle_PAGE_FREE);
    ("handle_PROC_NEW", handle_PROC_NEW);
    ("handle_PROC_CPU", handle_PROC_CPU);
    ("handle_PROC_STARV", handle_PROC_STARV);
    ("handle_PROC_WAIT_IO", handle_PROC_WAIT_IO);
    ("handle_PROC_WAIT_PAGE", handle_PROC_WAIT_PAGE);
    ("handle_PROC_TERM", handle_PROC_TERM);
    ("handle_PROC_KILL", handle_PROC_KILL) ].

(** [getattr(self, name, None)] for a name that starts with [handle_]. *)
Fixpoint lookup_attr (name : string) (tbl : list (string * (Event -> Method unit)))
  : option (Event -> Method unit) :=
  match tbl with
  | [] => None
  | (n, h) :: rest => if String.eqb n name then Some h else lookup_attr name rest
  end.

Definition getattr_handler (event : Event) : option (Event -> Method unit) :=
  lookup_attr ("handle_" ++ etype event) handlers.

(** ** [__call__] (lines 85-97) *)

(** The body of the [for] loop, over the remaining events. *)
Fixpoint dispatch (events : list Event) : Method unit :=
  match events with
  | [] => ret tt
  | event :: rest =>
      match getattr_handler event with
      | Some handler => handler event ;; dispatch rest
      | None => dispatch rest
      end
  end.

(** [__call__]: the value returned is the list [_event_queue] itself. *)
Definition __call__ (events : list Event) : Method (list Action) :=
  modify queue_clear ;;
  dispatch events ;;
  gets _event_queue.

(** One invocation from a given object: the batch returned and the object
    afterwards, or the exception that escapes. *)
Definition step (self : RunOs) (events : list Event)
  : PyError + (list Action * RunOs) :=
  runStateT (__call__ events) self.

(** ** Loading the script (lines 52-62 and 251) *)

(** The class body binds the seven attributes to empty lists. *)
Definition RunOs_new : RunOs := mkRunOs [] [] [] [] [] [] [].

(** Running the module with the three globals in place: [run_os = RunOs()]. *)
Definition load_script (g : Globals) : PyError + RunOs := inr RunOs_new.


(** ** What the claims speak of *)

(** The six collections that mirror the game. *)
Definition mirror (self : RunOs) :=
  (procs self, in_cpu self, wait_io self, wait_page self,
   ram_pages self, swap_pages self).

(** The objects the game can hold: the one the script creates, and what
    any number of invocations make of it. *)
Inductive reachable (g : Globals) : RunOs -> Prop :=
| reachable_load self :
    load_script g = inr self -> reachable g self
| reachable_step self events batch self' :
    reachable g self -> step self events = inr (batch, self') ->
    reachable g self'.

(** How many entries of a batch are the action [a]; an action is its own
    target key ([(pid, idx)], [pid], or nothing for the I/O dispatch). *)
Definition count_action (a : Action) (batch : list Action) : nat :=
  List.length (filter (Action_eqb a) batch).

(** The event kinds of the module docstring (lines 10-22). *)
Definition event_kinds : list string :=
  [ "IO_QUEUE"; "PAGE_NEW"; "PAGE_USE"; "PAGE_SWAP"; "PAGE_FREE";
    "PROC_NEW"; "PROC_CPU"; "PROC_STARV"; "PROC_WAIT_IO"; "PROC_WAIT_PAGE";
    "PROC_TERM"; "PROC_KILL" ].



(** The actions requested while a batch is processed: what the loop adds
    to the queue, whatever the queue holds when the loop starts. *)
Definition requests (events : list Event) (self : RunOs) (requested : list Action) : Prop :=
  forall queue,
    let self0 := mkRunOs (procs self) (in_cpu self) (wait_io self) (wait_page self)
                         (ram_pages self) (swap_pages self) queue in
    exists self',
      runStateT (dispatch events) self0 = inr (tt, self') /\
      _event_queue self' = (queue ++ requested)%list.

(** ** Requests in sequence *)

(** The helper that appends the action [a]: [move_page], [move_process]
    or [do_io], by the dictionary it builds. *)
Definition request (a : Action) : Method unit :=
  match a with
  | ActPage pid idx => move_page pid idx
  | ActProcess pid => move_process pid
  | ActIoQueue => do_io
  end.

(** The helpers called one after the other, for the actions of [l]. *)
Fixpoint request_all (l : list Action) : Method unit :=
  match l with
  | [] => ret tt
  | a :: rest => request a ;; request_all rest
  end.

(** * Properties *)

(** ** Runs on concrete batches *)

Example step_empty : step RunOs_new [] = inr ([], RunOs_new).
Proof. reflexivity. Qed.

Example step_two :
  step RunOs_new [mkEvent "PROC_NEW" [("pid", PyInt 1)]; mkEvent "NOPE" []]
  = inr ([], RunOs_new).
Proof. reflexivity. Qed.

Example step_drops_old_queue :
  step (mkRunOs [] [] [] [] [] [] [ActProcess 3; ActIoQueue])
       [mkEvent "IO_QUEUE" [("io_count", PyInt 2)]]
  = inr ([], RunOs_new).
Proof. reflexivity. Qed.

Example helpers_append :
  runStateT (move_page 1 0 ;; move_process 1 ;; do_io ;; gets _event_queue) RunOs_new
  = inr ([ActPage 1 0; ActProcess 1; ActIoQueue],
         mkRunOs [] [] [] [] [] [] [ActPage 1 0; ActProcess 1; ActIoQueue]).
Proof. reflexivity. Qed.

(** ** How the methods run *)

Section Running.

Variable self : RunOs.




(** [__call__] is the loop run on the object with its queue emptied. *)
Lemma step_unfold events :
  step self events
  = match runStateT (dispatch events) (queue_clear self) with
    | inl err => inl err
    | inr (_, self') => inr (_event_queue self', self')
    end.
Proof.
  unfold step, __call__. simpl.
  destruct (runStateT (dispatch events) (queue_clear self)) as [err | [u s']];
    reflexivity.
Qed.

End Running.

(** Every method the table holds returns at once and leaves [self] as it
    found it. *)
Lemma handler_returns name handler :
  lookup_attr name handlers = Some handler ->
  forall event self, runStateT (handler event) self = inr (tt, self).
Proof.
  unfold handlers. cbn [lookup_attr].
  repeat match goal with
         | |- context [String.eqb ?a name] => destruct (String.eqb a name)
         end;
    intros H; inversion H; reflexivity.
Qed.

Lemma dispatch_cons_known event rest handler self :
  getattr_handler event = Some handler ->
  runStateT (dispatch (event :: rest)) self
  = match runStateT (handler event) self with
    | inl err => inl err
    | inr (_, self') => runStateT (dispatch rest) self'
    end.
Proof.
  intros H. simpl. rewrite H. simpl.
  destruct (runStateT (handler event) self) as [err | [u s']]; reflexivity.
Qed.

Lemma dispatch_cons_unknown event rest :
  getattr_handler event = None -> dispatch (event :: rest) = dispatch rest.
Proof. intros H. simpl. rewrite H. reflexivity. Qed.

(** The loop over a batch ends, and [self] is what it was. *)
Lemma dispatch_returns events :
  forall self, runStateT (dispatch events) self = inr (tt, self).
Proof.
  induction events as [| event rest IH]; intros self.
  - reflexivity.
  - destruct (getattr_handler event) as [handler |] eqn:Hh.
    + rewrite (dispatch_cons_known _ _ _ _ Hh).
      rewrite (handler_returns _ _ Hh). apply IH.
    + rewrite (dispatch_cons_unknown _ _ Hh). apply IH.
Qed.

Lemma step_returns self events :
  step self events = inr ([], queue_clear self).
Proof. rewrite step_unfold, dispatch_returns. reflexivity. Qed.

Lemma step_total self events :
  exists batch self', step self events = inr (batch, self').
Proof. exists [], (queue_clear self). apply step_returns. Qed.

Lemma mirror_queue_clear self : mirror (queue_clear self) = mirror self.
Proof. reflexivity. Qed.

Lemma mirror_queue_append a self : mirror (queue_append a self) = mirror self.
Proof. reflexivity. Qed.

Lemma queue_clear_mirror self1 self2 :
  mirror self1 = mirror self2 -> queue_clear self1 = queue_clear self2.
Proof.
  unfold mirror, queue_clear. intros H. inversion H. reflexivity.
Qed.

(** The handler of an event, by its kind: the names of the table all
    start with [handle_], and so does the name looked up. *)
Lemma getattr_by_kind event :
  getattr_handler event
  = lookup_attr (etype event) (combine event_kinds (map snd handlers)).
Proof. reflexivity. Qed.


(** An unknown kind is one whose handler name the class does not have. *)
Lemma getattr_unknown event :
  ~ In (etype event) event_kinds <-> getattr_handler event = None.
Proof.
  rewrite getattr_by_kind. unfold handlers, event_kinds.
  cbn [lookup_attr map combine snd In].
  repeat match goal with
         | |- context [String.eqb ?a (etype event)] =>
             destruct (String.eqb_spec a (etype event))
         end;
    split; intros H; try discriminate; try reflexivity;
    try (exfalso; apply H; tauto);
    intros Hin; intuition congruence.
Qed.

(** ** The mirror over the runs of the agent *)

(** No invocation fills a collection: a reachable object is the one the
    script created. *)
Lemma reachable_new g self : reachable g self -> self = RunOs_new.
Proof.
  induction 1 as [self Hload | self events batch self' _ IH Hstep].
  - unfold load_script in Hload. congruence.
  - rewrite step_returns in Hstep. subst self. inversion Hstep. reflexivity.
Qed.





(** ** The batch returned *)





(** ** Events without a handler *)

(** The loop passes over an event of unknown kind wherever it stands. *)
Lemma dispatch_skip before event after :
  getattr_handler event = None ->
  dispatch (before ++ event :: after)%list = dispatch (before ++ after)%list.
Proof.
  intros Hnone. induction before as [| first before IH].
  - apply dispatch_cons_unknown, Hnone.
  - cbn [app dispatch]. rewrite IH. reflexivity.
Qed.

(** C5: an event whose kind is none of the twelve known kinds is ignored:
    the invocation returns the batch and leaves the object that the same
    events without it give, the events before and after it being
    processed all the same. *)
Theorem C5_unknown_kind_ignored
    (self : RunOs) (before after : list Event) (event : Event) :
  ~ In (etype event) event_kinds ->
  step self (before ++ event :: after)%list = step self (before ++ after)%list.
Proof.
  intros Hkind. apply getattr_unknown in Hkind.
  unfold step, __call__. rewrite (dispatch_skip _ _ _ Hkind). reflexivity.
Qed.

Lemma C5_unknown_kind_ignored_witness :
  let known := mkEvent "PROC_NEW" [("pid", PyInt 1)] in
  let unknown := mkEvent "PROC_PAUSE" [("pid", PyInt 1)] in
  step RunOs_new ([known] ++ unknown :: [known])%list
  = step RunOs_new ([known] ++ [known])%list.
Proof.
  intros known unknown.
  apply (C5_unknown_kind_ignored RunOs_new [known] [known] unknown).
  simpl. intros H.
  repeat (destruct H as [H | H]; [discriminate H |]).
  exact H.
Defined.

(** ** No exception *)

(** C6: whatever the events of a batch hold (pids and pages never seen,
    repeated creations, attributes missing or of the wrong type, kinds
    unknown), the invocation raises nothing: it returns a batch. *)
Theorem C6_step_never_raises (self : RunOs) (events : list Event) :
  exists batch self', step self events = inr (batch, self').
Proof.
  apply step_total.
Qed.

(** ** Loading *)

(** C7 fails on a configuration without CPUs and with a negative RAM
    capacity: the script loads and the first invocation is served. *)
Lemma C7_startup_counterexample :
  let g := mkGlobals 0 (-1) 0 in
  (num_cpus g <= 0 \/ num_ram_pages g <= 0 \/ num_swap_pages g <= 0) /\
  exists self batch self',
    load_script g = inr self /\ step self [] = inr (batch, self').
Proof.
  intros g. split.
  - left. simpl. lia.
  - exists RunOs_new, [], RunOs_new. split; reflexivity.
Qed.

(** C7, amended: loading the script succeeds for every value of the three
    scalars, positive or not, and gives the object with seven empty lists,
    on which every invocation is served. *)
Theorem C7_load_always_succeeds (g : Globals) :
  load_script g = inr RunOs_new /\
  forall events, exists batch self',
    step RunOs_new events = inr (batch, self').
Proof.
  split; [reflexivity |].
  intros events. apply step_total.
Qed.

(** ** The same event twice *)

(** C8: applying an event and then the same event again leaves the mirror
    that applying it once leaves, be it by two invocations on the event or
    by one invocation on a batch that holds it twice. *)
Theorem C8_event_twice (self : RunOs) (event : Event) :
  exists batch1 self1 batch2 self2 batch12 self12,
    step self [event] = inr (batch1, self1) /\
    step self1 [event] = inr (batch2, self2) /\
    step self [event; event] = inr (batch12, self12) /\
    mirror self2 = mirror self1 /\
    mirror self12 = mirror self1.
Proof.
  exists [], (queue_clear self), [], (queue_clear (queue_clear self)),
         [], (queue_clear self).
  rewrite !step_returns. repeat split.
Qed.

(** ** Two runs *)

(** C9: two invocations on objects with equal mirrors and on equal event
    batches return equal batches and leave equal objects; what the queue
    held before either invocation plays no part. *)
Theorem C9_step_deterministic
    (self1 self2 : RunOs) (events1 events2 : list Event) :
  mirror self1 = mirror self2 -> events1 = events2 ->
  step self1 events1 = step self2 events2.
Proof.
  intros Hmirror <-.
  rewrite !step_unfold, (queue_clear_mirror _ _ Hmirror). reflexivity.
Qed.

Lemma C9_step_deterministic_witness :
  let self1 := mkRunOs [1; 2] [1] [] [2] [(1, 0)] [(2, 0)] [ActIoQueue] in
  let self2 := mkRunOs [1; 2] [1] [] [2] [(1, 0)] [(2, 0)] [ActProcess 2] in
  let events := [mkEvent "PROC_CPU" [("pid", PyInt 1); ("cpu", PyBool false)]] in
  step self1 events = step self2 events.
Proof.
  intros self1 self2 events.
  apply (C9_step_deterministic self1 self2 events events); reflexivity.
Defined.

(** ** Frame *)

(** C10: an invocation leaves the six collections of the mirror as they
    were, and the batch it returns is exactly what the handlers requested
    during it: the queue is emptied at entry, so that nothing a former
    invocation left in it is returned. *)
Theorem C10_step_frame (self : RunOs) (events : list Event) :
  exists batch self',
    step self events = inr (batch, self') /\
    mirror self' = mirror self /\
    requests events self batch /\
    _event_queue self' = batch /\
    forall a, In a (_event_queue self) -> ~ In a batch.
Proof.
  exists [], (queue_clear self). split; [apply step_returns |].
  split; [apply mirror_queue_clear |]. split; [| split; [reflexivity |]].
  - intros queue self0. exists self0.
    split; [apply dispatch_returns |].
    subst self0. cbn [_event_queue]. rewrite app_nil_r. reflexivity.
  - intros a _ Hin. exact Hin.
Qed.

(** * Further properties of the helpers and of [__call__] *)

Lemma run_request a self :
  runStateT (request a) self = inr (tt, queue_append a self).
Proof. destruct a; reflexivity. Qed.

Lemma run_request_all l :
  forall self,
    runStateT (request_all l) self
    = inr (tt, mkRunOs (procs self) (in_cpu self) (wait_io self)
                       (wait_page self) (ram_pages self) (swap_pages self)
                       (_event_queue self ++ l)).
Proof.
  induction l as [| a rest IH]; intros self.
  - cbn [request_all]. rewrite app_nil_r. destruct self; reflexivity.
  - cbn [request_all].
    change (runStateT (request a ;; request_all rest) self)
      with (match runStateT (request a) self with
            | inl err => inl err
            | inr (_, self') => runStateT (request_all rest) self'
            end).
    rewrite run_request, IH. unfold queue_append. cbn [procs in_cpu wait_io
      wait_page ram_pages swap_pages _event_queue].
    rewrite <- app_assoc. reflexivity.
Qed.

Lemma Action_eqb_eq a b : Action_eqb a b = true -> a = b.
Proof.
  destruct a, b; simpl; intros H; try discriminate; try reflexivity.
  - apply andb_prop in H. destruct H as [Hp Hi].
    apply Z.eqb_eq in Hp, Hi. congruence.
  - apply Z.eqb_eq in H. congruence.
Qed.

(** X1: helper calls made one after the other never raise, add their
    actions at the end of the queue in the order of the calls (what the
    queue held stays in front, duplicates included), and leave the six
    collections of the mirror alone. *)
Theorem X1_requests_append_in_order (l : list Action) (self : RunOs) :
  exists self',
    runStateT (request_all l) self = inr (tt, self') /\
    _event_queue self' = (_event_queue self ++ l)%list /\
    mirror self' = mirror self.
Proof.
  eexists. split; [apply run_request_all |]. split; reflexivity.
Qed.

(** X2: a helper call changes the number of queued actions of no other
    target key than its own. *)
Theorem X2_request_other_key (a b : Action) (self : RunOs) :
  a <> b ->
  exists self',
    runStateT (request a) self = inr (tt, self') /\
    count_action b (_event_queue self') = count_action b (_event_queue self).
Proof.
  intros Hneq. exists (queue_append a self). split; [apply run_request |].
  unfold count_action, queue_append. cbn [_event_queue].
  rewrite filter_app, length_app. cbn [filter].
  destruct (Action_eqb b a) eqn:Heq.
  - apply Action_eqb_eq in Heq. congruence.
  - cbn [List.length]. lia.
Qed.

Lemma X2_request_other_key_witness :
  exists self',
    runStateT (request (ActPage 1 0)) (queue_append (ActPage 1 1) RunOs_new)
    = inr (tt, self') /\
    count_action (ActPage 1 1) (_event_queue self')
    = count_action (ActPage 1 1) (_event_queue (queue_append (ActPage 1 1) RunOs_new)).
Proof.
  apply (X2_request_other_key (ActPage 1 0) (ActPage 1 1)
           (queue_append (ActPage 1 1) RunOs_new)).
  discriminate.
Defined.

(** X3: an invocation returns the empty batch and leaves the object with
    its queue emptied and its six collections as they were, whatever the
    events and whatever the queue held. *)
Theorem X3_step_result (self : RunOs) (events : list Event) :
  step self events
  = inr ([], mkRunOs (procs self) (in_cpu self) (wait_io self)
                     (wait_page self) (ram_pages self) (swap_pages self) []).
Proof. apply step_returns. Qed.

(** X4: the events of a batch have no influence on the outcome: two
    invocations on the same object with any two batches return the same
    batch and leave the same object. *)
Theorem X4_events_without_influence (self : RunOs) (events1 events2 : list Event) :
  step self events1 = step self events2.
Proof. rewrite !step_returns. reflexivity. Qed.

(** X5: an event is routed to a handler exactly when its kind is one of
    the twelve kinds the module docstring lists, letter for letter. *)
Theorem X5_handler_iff_known_kind (event : Event) :
  (exists handler, getattr_handler event = Some handler) <->
  In (etype event) event_kinds.
Proof.
  pose proof (getattr_unknown event) as [Hto Hfrom].
  destruct (in_dec string_dec (etype event) event_kinds) as [Hin | Hout].
  - split; [intros _; exact Hin |]. intros _.
    destruct (getattr_handler event) as [handler |] eqn:Hh.
    + exists handler. reflexivity.
    + exfalso. exact (Hfrom eq_refl Hin).
  - split; [| intros Hin; contradiction].
    intros [handler Hh]. rewrite (Hto Hout) in Hh. discriminate Hh.
Qed.

(** X6: whatever batches the agent has been invoked on since the script
    was loaded, its seven lists are empty: the object is the one the
    class body built. *)
Theorem X6_reachable_is_new (g : Globals) (self : RunOs) :
  reachable g self -> self = RunOs_new.
Proof. apply reachable_new. Qed.

Lemma X6_reachable_is_new_witness :
  queue_clear (queue_clear RunOs_new) = RunOs_new.
Proof.
  apply (X6_reachable_is_new (mkGlobals 2 4 8)).
  apply (reachable_step _ (queue_clear RunOs_new)
           [mkEvent "PROC_KILL" [("pid", PyInt 1)]] []).
  - apply (reachable_step _ RunOs_new
             [mkEvent "PROC_NEW" [("pid", PyInt 1)];
              mkEvent "PAGE_NEW" [("pid", PyInt 1); ("idx", PyInt 0);
                                  ("swap", PyBool false); ("use", PyBool false)]] []).
    + apply reachable_load. reflexivity.
    + reflexivity.
  - reflexivity.
Defined.

(** X7: actions requested through the helpers before an invocation are
    dropped by it: the invocation returns and leaves what it would have
    without those requests. *)
Theorem X7_earlier_requests_dropped
    (l : list Action) (self : RunOs) (events : list Event) :
  exists self1,
    runStateT (request_all l) self = inr (tt, self1) /\
    step self1 events = step self events.
Proof.
  eexists. split; [apply run_request_all |].
  rewrite !step_returns. reflexivity.
Qed.
